(** * cs-firewall-bouncer: the pf backend and the unsupported-platform stubs

    A shallow embedding of [pf.go] (the packet-filter backend that drives
    [/sbin/pfctl]) and of the [!linux] constructors of the nftables and
    iptables backends, followed by the properties of the backend lifecycle.

    The Go code talks to its host through [os.Stat], [exec.LookPath],
    [exec.Cmd.CombinedOutput] and the logger.  Every such call is recorded as
    an [Event]; what the host answers is read from a [Platform], which the
    theorems quantify over.  A nil pointer dereference is a [Panic]. *)

From Stdlib Require Import String Ascii List ZArith Lia Bool.
From Stdlib Require Import DecimalString.
Import ListNotations.

Local Open Scope list_scope.
Local Open Scope string_scope.

(** ** Go values *)

(** A Go pointer: nil or a referent. *)
Definition ptr (A : Type) : Type := option A.

(** A Go [error] value, identified with its [Error()] text; nil is [None]. *)
Definition error : Type := option string.

(** ** Package strings *)

Module strings.

Fixpoint HasPrefix (s prefix : string) : bool :=
  match prefix, s with
  | EmptyString, _ => true
  | String c p', String d s' => Ascii.eqb c d && HasPrefix s' p'
  | String _ _, EmptyString => false
  end.

(** [Contains s substr] reports whether [substr] is within [s]. *)
Fixpoint Contains (s substr : string) : bool :=
  HasPrefix s substr ||
  match s with
  | EmptyString => false
  | String _ s' => Contains s' substr
  end.

Fixpoint Join (elems : list string) (sep : string) : string :=
  match elems with
  | [] => ""
  | [x] => x
  | x :: rest => x ++ sep ++ Join rest sep
  end.

End strings.

(** ** Package strconv *)

Module strconv.

Definition Itoa (i : Z) : string := NilZero.string_of_int (Z.to_int i).

End strconv.

(** ** Package fmt: the verbs the backend uses *)

Module fmt.

(** Operands left over once the format is exhausted. *)
Definition extra (a : list string) : string :=
  match a with
  | [] => ""
  | _ => "%!(EXTRA " ++ strings.Join (map (fun x => "string=" ++ x) a) ", " ++ ")"
  end.

Definition isStringVerb (c : ascii) : bool :=
  Ascii.eqb c "s" || Ascii.eqb c "v".

(** [Sprintf] over string operands (an [error] operand prints as its
    text under both [%s] and [%v]).  A verb without operand prints as
    [%!verb(MISSING)]. *)
Fixpoint Sprintf (format : string) (a : list string) : string :=
  match format with
  | EmptyString => extra a
  | String "%" EmptyString => "%!(NOVERB)" ++ extra a
  | String "%" (String c rest) =>
      if Ascii.eqb c "%" then String "%" (Sprintf rest a)
      else
        match a with
        | [] => "%!" ++ String c "(MISSING)" ++ Sprintf rest []
        | x :: a' =>
            if isStringVerb c then x ++ Sprintf rest a'
            else "%!" ++ String c ("(string=" ++ x ++ ")") ++ Sprintf rest a'
        end
  | String c rest => String c (Sprintf rest a)
  end.

Definition Errorf (format : string) (a : list string) : error :=
  Some (Sprintf format a).

End fmt.

(** ** Package github.com/pkg/errors *)

Module errors.

Definition Errorf (format : string) (a : list string) : error :=
  Some (fmt.Sprintf format a).

(** [Wrapf err format a] annotates a non-nil [err]; on nil it is nil. *)
Definition Wrapf (err : error) (format : string) (a : list string) : error :=
  match err with
  | None => None
  | Some cause => Some (fmt.Sprintf format a ++ ": " ++ cause)
  end.

End errors.

(** ** Package time *)

Module time.

(** A [Duration] is an int64 count of nanoseconds. *)
Definition Duration : Type := Z.

Definition Nanosecond : Duration := 1%Z.
Definition Microsecond : Duration := (1000 * Nanosecond)%Z.
Definition Millisecond : Duration := (1000 * Microsecond)%Z.
Definition Second : Duration := (1000 * Millisecond)%Z.
Definition Minute : Duration := (60 * Second)%Z.
Definition Hour : Duration := (60 * Minute)%Z.

(** *** A reference [ParseDuration]

    The grammar and the overflow checks of the standard library's parser:
    an optional sign, then one or more groups of a decimal number (with an
    optional fraction) and a unit suffix.  The standard library scales a
    fraction in float64; here it is scaled in exact arithmetic.  The
    theorems below do not depend on this definition: they hold for the
    parser of any [Platform]. *)

Inductive parseError : Type :=
| invalidDuration
| missingUnit
| unknownUnit (u : string).

Definition isDigit (c : ascii) : bool :=
  (48 <=? nat_of_ascii c)%nat && (nat_of_ascii c <=? 57)%nat.

Definition digitVal (c : ascii) : Z := (Z.of_nat (nat_of_ascii c) - 48)%Z.

Definition isDigitOrDot (c : ascii) : bool := Ascii.eqb c "." || isDigit c.

(** Consumes the leading digits; [None] on overflow. *)
Fixpoint leadingInt (x : Z) (s : string) : option (Z * string) :=
  match s with
  | String c s' =>
      if isDigit c then
        if (x >? 2 ^ 63 / 10)%Z then None
        else
          let x' := (x * 10 + digitVal c)%Z in
          if (x' >? 2 ^ 63)%Z then None else leadingInt x' s'
      else Some (x, s)
  | EmptyString => Some (x, s)
  end.

(** Consumes the digits after the point; digits past an overflow are
    skipped. *)
Fixpoint leadingFraction (x scale : Z) (overflow : bool) (s : string)
  : Z * Z * string :=
  match s with
  | String c s' =>
      if isDigit c then
        if overflow then leadingFraction x scale true s'
        else if (x >? (2 ^ 63 - 1) / 10)%Z then leadingFraction x scale true s'
        else
          let y := (x * 10 + digitVal c)%Z in
          if (y >? 2 ^ 63)%Z then leadingFraction x scale true s'
          else leadingFraction y (scale * 10)%Z false s'
      else (x, scale, s)
  | EmptyString => (x, scale, s)
  end.

(** Splits off the unit: everything up to the next digit or point. *)
Fixpoint unitSpan (s : string) : string * string :=
  match s with
  | String c s' =>
      if isDigitOrDot c then ("", s)
      else let (u, r) := unitSpan s' in (String c u, r)
  | EmptyString => ("", "")
  end.

(** The micro sign U+00B5 and the Greek mu U+03BC, in UTF-8. *)
Definition microSign : string :=
  String (ascii_of_nat 194) (String (ascii_of_nat 181) "").
Definition greekMu : string :=
  String (ascii_of_nat 206) (String (ascii_of_nat 188) "").

Definition unitMap (u : string) : option Z :=
  if String.eqb u "ns" then Some Nanosecond
  else if String.eqb u "us" then Some Microsecond
  else if String.eqb u (microSign ++ "s") then Some Microsecond
  else if String.eqb u (greekMu ++ "s") then Some Microsecond
  else if String.eqb u "ms" then Some Millisecond
  else if String.eqb u "s" then Some Second
  else if String.eqb u "m" then Some Minute
  else if String.eqb u "h" then Some Hour
  else None.

(** The loop over [number unit] groups; every round consumes at least
    one character, so [length s] rounds of [fuel] suffice. *)
Fixpoint parseGroups (fuel : nat) (d : Z) (s : string) : Z + parseError :=
  match s with
  | EmptyString => inl d
  | String c _ =>
      match fuel with
      | O => inr invalidDuration
      | S fuel' =>
          if negb (isDigitOrDot c) then inr invalidDuration
          else
            match leadingInt 0 s with
            | None => inr invalidDuration
            | Some (v, s1) =>
                let pre := negb (String.length s =? String.length s1)%nat in
                let '(f, scale, s2, post) :=
                  match s1 with
                  | String "." s1' =>
                      let '(f, scale, s2) := leadingFraction 0 1 false s1' in
                      (f, scale, s2, negb (String.length s1' =? String.length s2)%nat)
                  | _ => (0%Z, 1%Z, s1, false)
                  end in
                if negb pre && negb post then inr invalidDuration
                else
                  let (u, s3) := unitSpan s2 in
                  if String.eqb u "" then inr missingUnit
                  else
                    match unitMap u with
                    | None => inr (unknownUnit u)
                    | Some unit =>
                        if (v >? 2 ^ 63 / unit)%Z then inr invalidDuration
                        else
                          let v1 := (v * unit)%Z in
                          let v2 := if (f >? 0)%Z
                                    then (v1 + f * unit / scale)%Z else v1 in
                          if (v2 >? 2 ^ 63)%Z then inr invalidDuration
                          else
                            let d' := ((d + v2) mod 2 ^ 64)%Z in
                            if (d' >? 2 ^ 63)%Z then inr invalidDuration
                            else parseGroups fuel' d' s3
                    end
            end
      end
  end.

(** The string between double quotes; the standard library also escapes
    quotes, backslashes and bytes that do not print, which matters only for
    the text of a parse error on such inputs. *)
Definition quote (s : string) : string :=
  String (ascii_of_nat 34) (s ++ String (ascii_of_nat 34) "").

Definition errorText (orig : string) (e : parseError) : string :=
  match e with
  | invalidDuration => "time: invalid duration " ++ quote orig
  | missingUnit => "time: missing unit in duration " ++ quote orig
  | unknownUnit u =>
      "time: unknown unit " ++ quote u ++ " in duration " ++ quote orig
  end.

Definition ParseDuration (orig : string) : Duration * error :=
  let fail e := (0%Z, Some (errorText orig e)) in
  let '(neg, s) :=
    match orig with
    | String "-" s' => (true, s')
    | String "+" s' => (false, s')
    | _ => (false, orig)
    end in
  if String.eqb s "0" then (0%Z, None)
  else if String.eqb s "" then fail invalidDuration
  else
    match parseGroups (String.length s) 0 s with
    | inr e => fail e
    | inl d =>
        if neg then ((- d)%Z, None)
        else if (d >? 2 ^ 63 - 1)%Z then fail invalidDuration
        else (d, None)
    end.

(** [int(d.Seconds())] wherever the float64 sum is exact: the whole
    seconds of [d], truncated towards zero. *)
Definition SecondsInt (d : Duration) : Z := Z.quot d Second.

End time.

(** ** The host: events and the platform that answers them *)

Module exec.

(** An [exec.Cmd]: the program path and its argument vector
    ([Args] starts with the command name). *)
Record Cmd : Type := { Path : string; Args : list string }.

(** [exec.Command name arg...].  The only name this program passes is a
    rooted path, for which [exec.Command] performs no path lookup. *)
Definition Command (name : string) (arg : list string) : Cmd :=
  {| Path := name; Args := name :: arg |}.

(** [Cmd.String]: the path followed by the arguments, space separated. *)
Definition String (c : Cmd) : string :=
  Path c ++ String.concat "" (map (fun a => " " ++ a) (tl (Args c))).

End exec.

Inductive Level : Type := DebugLevel | InfoLevel | ErrorLevel.

(** An event records a call to the host together with the host's answer;
    [EvLog] records a call to the logger, whatever level the logger shows. *)
Inductive Event : Type :=
| EvStat (name : string) (err : error)
| EvLookPath (file : string) (err : error)
| EvRun (cmd : exec.Cmd) (out : string) (err : error)
| EvLog (level : Level) (msg : string).

(** What the host answers.  The first argument of each query is the history
    of events so far, so that an answer may depend on what was run before.
    [parseDuration] is [time.ParseDuration] and [seconds d] is
    [int(d.Seconds())], a float64 computation in Go. *)
Record Platform : Type := {
  stat : list Event -> string -> error;
  lookPath : list Event -> string -> error;
  combinedOutput : list Event -> exec.Cmd -> string * error;
  parseDuration : string -> time.Duration * error;
  seconds : time.Duration -> Z
}.

(** ** The monad of backend operations *)

Inductive result (A : Type) : Type :=
| Done (a : A)
| Panic (msg : string).

Arguments Done {A} a.
Arguments Panic {A} msg.

(** A computation reads the platform and the history and yields its result
    with the events it emitted, oldest first. *)
Definition M (A : Type) : Type :=
  Platform -> list Event -> result A * list Event.

Definition ret {A : Type} (a : A) : M A :=
  fun _ _ => (Done a, []).

Definition bind {A B : Type} (m : M A) (f : A -> M B) : M B :=
  fun P h =>
    match m P h with
    | (Done a, e1) =>
        match f a P (h ++ e1)%list with
        | (r, e2) => (r, (e1 ++ e2)%list)
        end
    | (Panic msg, e1) => (Panic msg, e1)
    end.

Declare Scope go_scope.
Delimit Scope go_scope with go.

Notation "x <- m ;; k" := (bind m (fun x => k))
  (at level 61, m at next level, right associativity) : go_scope.
Notation "' pat <- m ;; k" := (bind m (fun x => match x with pat => k end))
  (at level 61, pat pattern, m at next level, right associativity) : go_scope.
Notation "m ;; k" := (bind m (fun _ => k))
  (at level 61, right associativity) : go_scope.
(** Go's [if err := m; err != nil { return r }], followed by [k]. *)
Notation "'iferr' e <- m 'return' r ;; k" :=
  (bind m (fun x => match x with Some e => ret r | None => k end))
  (at level 61, e name, m at next level, r at next level,
   right associativity) : go_scope.

Local Open Scope go_scope.

Definition emit (e : Event) : M unit :=
  fun _ _ => (Done tt, [e]).

Definition nilDeref : string :=
  "runtime error: invalid memory address or nil pointer dereference".

(** [*p], and field selection through [p]. *)
Definition deref {A : Type} (p : ptr A) : M A :=
  match p with
  | Some a => ret a
  | None => fun _ _ => (Panic nilDeref, [])
  end.

(** [os.Stat]; only the error is read by this program. *)
Definition os_Stat (name : string) : M error :=
  fun P h => let err := stat P h name in (Done err, [EvStat name err]).

(** [exec.LookPath]; only the error is read by this program. *)
Definition exec_LookPath (file : string) : M error :=
  fun P h => let err := lookPath P h file in (Done err, [EvLookPath file err]).

(** [Cmd.CombinedOutput]: runs the command and returns its combined
    standard output and standard error. *)
Definition exec_CombinedOutput (c : exec.Cmd) : M (string * error) :=
  fun P h =>
    let r := combinedOutput P h c in (Done r, [EvRun c (fst r) (snd r)]).

Definition time_ParseDuration (s : string) : M (time.Duration * error) :=
  fun P _ => (Done (parseDuration P s), []).

Definition time_Seconds_int (d : time.Duration) : M Z :=
  fun P _ => (Done (seconds P d), []).

(** Package logrus. [Printf] logs at the info level. *)
Module log.

Definition Debugf (format : string) (a : list string) : M unit :=
  emit (EvLog DebugLevel (fmt.Sprintf format a)).

Definition Infof (format : string) (a : list string) : M unit :=
  emit (EvLog InfoLevel (fmt.Sprintf format a)).

Definition Errorf (format : string) (a : list string) : M unit :=
  emit (EvLog ErrorLevel (fmt.Sprintf format a)).

Definition Printf (format : string) (a : list string) : M unit :=
  emit (EvLog InfoLevel (fmt.Sprintf format a)).

End log.

(** ** models.Decision and the configuration *)

(** The fields of [models.Decision] that the backend reads; each is a
    [*string]. *)
Record Decision : Type := {
  Duration : ptr string;
  Scenario : ptr string;
  Value : ptr string
}.

(** The one field of the configuration that the factories read. *)
Record bouncerConfig : Type := { DisableIPV6 : bool }.

(** ** pf.go *)

Definition backendName : string := "pf".

Definition pfctlCmd : string := "/sbin/pfctl".
Definition pfDevice : string := "/dev/pf".

Definition addBanFormat : string := "%s: add ban on %s for %s sec (%s)".
Definition delBanFormat : string := "%s: del ban on %s for %s sec (%s)".

Module pfContext.

Record t : Type := { proto : string; table : string }.

Definition checkTable (ctx : ptr t) : M error :=
  c <- deref ctx ;;
  log.Infof "Checking pf table: %s" [table c] ;;
  let cmd := exec.Command pfctlCmd ["-s"; "Tables"] in
  '(out, err) <- exec_CombinedOutput cmd ;;
  match err with
  | Some e => ret (errors.Wrapf err "pfctl error : %v - %s" [e; out])
  | None =>
      if negb (strings.Contains out (table c))
      then ret (errors.Errorf "table %s doesn't exist" [table c])
      else ret None
  end.

Definition shutDown (ctx : ptr t) : M error :=
  c <- deref ctx ;;
  let cmd := exec.Command pfctlCmd ["-t"; table c; "-T"; "flush"] in
  log.Infof "pf table clean-up : %s" [exec.String cmd] ;;
  '(out, err) <- exec_CombinedOutput cmd ;;
  match err with
  | Some e => log.Errorf "Error while flushing table (%s): %v - %s" [e; out]
  | None => ret tt
  end ;;
  ret None.

Definition Add (ctx : ptr t) (decision : Decision) : M error :=
  duration <- deref (Duration decision) ;;
  '(banDuration, err) <- time_ParseDuration duration ;;
  match err with
  | Some _ => ret err
  | None =>
      value <- deref (Value decision) ;;
      secs <- time_Seconds_int banDuration ;;
      scenario <- deref (Scenario decision) ;;
      log.Debugf addBanFormat [backendName; value; strconv.Itoa secs; scenario] ;;
      c <- deref ctx ;;
      let cmd := exec.Command pfctlCmd ["-t"; table c; "-T"; "add"; value] in
      log.Debugf "pfctl add : %s" [exec.String cmd] ;;
      '(out, err) <- exec_CombinedOutput cmd ;;
      match err with
      | Some e =>
          log.Infof "Error while adding to table (%s): %v --> %s"
                    [exec.String cmd; e; out]
      | None => ret tt
      end ;;
      ret None
  end.

Definition Delete (ctx : ptr t) (decision : Decision) : M error :=
  duration <- deref (Duration decision) ;;
  '(banDuration, err) <- time_ParseDuration duration ;;
  match err with
  | Some _ => ret err
  | None =>
      value <- deref (Value decision) ;;
      secs <- time_Seconds_int banDuration ;;
      scenario <- deref (Scenario decision) ;;
      log.Debugf delBanFormat [backendName; value; strconv.Itoa secs; scenario] ;;
      c <- deref ctx ;;
      let cmd := exec.Command pfctlCmd ["-t"; table c; "-T"; "delete"; value] in
      log.Debugf "pfctl del : %s" [exec.String cmd] ;;
      '(out, err) <- exec_CombinedOutput cmd ;;
      match err with
      | Some e =>
          log.Infof "Error while deleting from table (%s): %v --> %s"
                    [exec.String cmd; e; out]
      | None => ret tt
      end ;;
      ret None
  end.

End pfContext.

Module pf.

Record t : Type := { inet : ptr pfContext.t; inet6 : ptr pfContext.t }.

Definition isNil {A : Type} (p : ptr A) : bool :=
  match p with Some _ => false | None => true end.

Definition Init (pf : t) : M error :=
  iferr e <- os_Stat pfDevice
    return (fmt.Errorf "%s device not found: %s" [pfDevice; e]) ;;
  iferr e <- exec_LookPath pfctlCmd
    return (fmt.Errorf "%s command not found: %s" [pfctlCmd; e]) ;;
  iferr e <- pfContext.shutDown (inet pf)
    return (fmt.Errorf "pf table flush failed: %s" [e]) ;;
  iferr e <- pfContext.checkTable (inet pf)
    return (fmt.Errorf "pf init failed: %s" [e]) ;;
  log.Printf "pf for ipv4 initiated" [] ;;
  if negb (isNil (inet6 pf)) then
    iferr e <- pfContext.shutDown (inet pf)
      return (fmt.Errorf "pf shutdown failed: %s" [e]) ;;
    iferr e <- pfContext.checkTable (inet pf)
      return (fmt.Errorf "pf init failed: %s" [e]) ;;
    log.Printf "pf for ipv6 initiated" [] ;;
    ret None
  else
    ret None.

Definition Add (pf : t) (decision : Decision) : M error :=
  value <- deref (Value decision) ;;
  if strings.Contains value ":" && negb (isNil (inet6 pf)) then
    if negb (isNil (inet6 pf)) then
      iferr _e <- pfContext.Add (inet6 pf) decision
        return (fmt.Errorf "failed to add ban ip '%s' to inet6 table" [value]) ;;
      ret None
    else
      log.Debugf "not adding '%s' because ipv6 is disabled" [value] ;;
      ret None
  else
    iferr _e <- pfContext.Add (inet pf) decision
      return (fmt.Errorf "failed adding ban ip '%s' to inet table" [value]) ;;
    ret None.

Definition Delete (pf : t) (decision : Decision) : M error :=
  value <- deref (Value decision) ;;
  if strings.Contains value ":" then
    if negb (isNil (inet6 pf)) then
      iferr _e <- pfContext.Delete (inet6 pf) decision
        return (fmt.Errorf "failed to remove ban ip '%s' from inet6 table" [value]) ;;
      ret None
    else
      log.Debugf "not removing '%s' because ipv6 is disabled" [value] ;;
      ret None
  else
    iferr _e <- pfContext.Delete (inet pf) decision
      return (fmt.Errorf "failed to remove ban ip '%s' from inet6 table" [value]) ;;
    ret None.

Definition ShutDown (pf : t) : M error :=
  log.Infof "flushing 'crowdsec' table(s)" [] ;;
  err <- pfContext.shutDown (inet pf) ;;
  match err with
  | Some _ =>
      c <- deref (inet pf) ;;
      ret (fmt.Errorf "unable to flush inet table (%s): " [pfContext.table c])
  | None =>
      if negb (isNil (inet6 pf)) then
        err <- pfContext.shutDown (inet6 pf) ;;
        match err with
        | Some _ =>
            c <- deref (inet pf) ;;
            ret (fmt.Errorf "unable to flush inet table (%s): " [pfContext.table c])
        | None => ret None
        end
      else
        ret None
  end.

End pf.

Definition set_inet (p : pf.t) (c : ptr pfContext.t) : pf.t :=
  {| pf.inet := c; pf.inet6 := pf.inet6 p |}.

Definition set_inet6 (p : pf.t) (c : ptr pfContext.t) : pf.t :=
  {| pf.inet := pf.inet p; pf.inet6 := c |}.

(** [newPF] yields the backend as an [interface{}] holding a [*pf]. *)
Definition newPF (config : bouncerConfig) : ptr pf.t * error :=
  let r := {| pf.inet := None; pf.inet6 := None |} in
  let inetCtx :=
    {| pfContext.table := "crowdsec-blacklists"; pfContext.proto := "inet" |} in
  let inet6Ctx :=
    {| pfContext.table := "crowdsec6-blacklists"; pfContext.proto := "inet6" |} in
  let r := set_inet r (Some inetCtx) in
  if DisableIPV6 config then (Some r, None)
  else
    let r := set_inet6 r (Some inet6Ctx) in
    (Some r, None).

(** ** The backend contract and the [!linux] constructors *)

Module types.

(** The [Backend] interface, as its method table. *)
Record Backend : Type := {
  Init : M error;
  ShutDown : M error;
  Add : Decision -> M error;
  Delete : Decision -> M error;
  Commit : M error;
  CollectMetrics : M unit
}.

End types.

Module nftables.

Definition NewNFTables (config : bouncerConfig) : ptr types.Backend * error :=
  (None, None).

End nftables.

Module iptables.

Definition NewIPTables (config : bouncerConfig) : ptr types.Backend * error :=
  (None, None).

End iptables.

(** ** Reading a run *)

Definition outcome {A : Type} (m : M A) (P : Platform) (h : list Event)
  : result A := fst (m P h).

Definition events {A : Type} (m : M A) (P : Platform) (h : list Event)
  : list Event := snd (m P h).

(** The tool invocations among the emitted events, in order. *)
Fixpoint invocations (evs : list Event) : list exec.Cmd :=
  match evs with
  | [] => []
  | EvRun c _ _ :: rest => c :: invocations rest
  | _ :: rest => invocations rest
  end.

(** The path lookups among the emitted events, in order. *)
Fixpoint lookups (evs : list Event) : list string :=
  match evs with
  | [] => []
  | EvLookPath f _ :: rest => f :: lookups rest
  | _ :: rest => lookups rest
  end.

(** The four invocations of section 6, for the table of a context. *)
Definition tablesQuery : exec.Cmd :=
  exec.Command pfctlCmd ["-s"; "Tables"].
Definition flushOf (table : string) : exec.Cmd :=
  exec.Command pfctlCmd ["-t"; table; "-T"; "flush"].
Definition addOf (table address : string) : exec.Cmd :=
  exec.Command pfctlCmd ["-t"; table; "-T"; "add"; address].
Definition deleteOf (table address : string) : exec.Cmd :=
  exec.Command pfctlCmd ["-t"; table; "-T"; "delete"; address].

(** The two mutations of a table, to state what [Add] and [Delete] share. *)
Inductive Mutation : Type := Insert | Remove.

Definition contextOp (m : Mutation) : ptr pfContext.t -> Decision -> M error :=
  match m with Insert => pfContext.Add | Remove => pfContext.Delete end.

Definition backendOp (m : Mutation) : pf.t -> Decision -> M error :=
  match m with Insert => pf.Add | Remove => pf.Delete end.

Definition invocationOf (m : Mutation) : string -> string -> exec.Cmd :=
  match m with Insert => addOf | Remove => deleteOf end.

(** The Family Context that matches an address: the IPv6 one iff the
    address contains a colon (the routing table of the decision router). *)
Definition familyContext (p : pf.t) (value : string) : ptr pfContext.t :=
  if strings.Contains value ":" then pf.inet6 p else pf.inet p.

(** ** A simulated host

    The device and the tool are present iff [device] and [tool]; the tables
    query prints [tables] and exits with [queryStatus]; every other
    invocation prints [output] and exits with [status]. *)
Definition simHost (device tool : bool) (tables : string) (queryStatus : error)
    (output : string) (status : error) : Platform :=
  {| stat := fun _ name =>
       if device then None
       else Some ("stat " ++ name ++ ": no such file or directory");
     lookPath := fun _ file =>
       if tool then None
       else Some ("exec: " ++ time.quote file ++ ": stat " ++ file
                  ++ ": no such file or directory");
     combinedOutput := fun _ c =>
       match exec.Args c with
       | [_; a; b] =>
           if String.eqb a "-s" && String.eqb b "Tables"
           then (tables, queryStatus) else (output, status)
       | _ => (output, status)
       end;
     parseDuration := time.ParseDuration;
     seconds := time.SecondsInt |}.

(** A healthy host on which both tables exist. *)
Definition goodHost : Platform :=
  simHost true true "crowdsec-blacklists
crowdsec6-blacklists
" None "" None.

(** A backend without IPv6, as [newPF] builds it. *)
Definition inetOnly : pf.t :=
  {| pf.inet := Some {| pfContext.proto := "inet";
                        pfContext.table := "crowdsec-blacklists" |};
     pf.inet6 := None |}.

(** A backend with both families, as [newPF] builds it. *)
Definition dualStack : pf.t :=
  {| pf.inet := Some {| pfContext.proto := "inet";
                        pfContext.table := "crowdsec-blacklists" |};
     pf.inet6 := Some {| pfContext.proto := "inet6";
                         pfContext.table := "crowdsec6-blacklists" |} |}.

Definition banOf (value duration : string) : Decision :=
  {| Duration := Some duration;
     Scenario := Some "bruteforce";
     Value := Some value |}.

(** ** Routing, as the code does it *)

(** The Family Context that the code of [Add] and of [Delete] hands a
    decision to; [None] when the decision is dropped. *)
Definition delegate (m : Mutation) (p : pf.t) (value : string)
  : option (ptr pfContext.t) :=
  match m with
  | Insert =>
      if strings.Contains value ":" && negb (pf.isNil (pf.inet6 p))
      then Some (pf.inet6 p) else Some (pf.inet p)
  | Remove =>
      if strings.Contains value ":"
      then (if negb (pf.isNil (pf.inet6 p)) then Some (pf.inet6 p) else None)
      else Some (pf.inet p)
  end.

(** What the backend makes of the outcome of the Family Context: a non-nil
    error is replaced by a message of its own. *)
Definition wrapped (wrap : string) (r : result error) : result error :=
  match r with
  | Done (Some _) => Done (Some wrap)
  | other => other
  end.

(** ** More hosts *)

(** A host on which every add and delete fails with a message. *)
Definition failingHost : Platform :=
  simHost true true "crowdsec-blacklists" None
          "pfctl: Operation not permitted." (Some "exit status 1").

(** A host whose tables query lists the table and then exits non-zero. *)
Definition brokenQueryHost : Platform :=
  simHost true true "crowdsec-blacklists" (Some "exit status 1") "" None.

(** A host on which only the IPv4 table exists. *)
Definition inetTableOnlyHost : Platform :=
  simHost true true "crowdsec-blacklists" None "" None.

(** ** The rest of the lifecycle *)

(** The package-level backend of pf.go, [var pfCtx = &pf{}]: the zero value,
    whose two contexts are nil. *)
Definition pfCtx : pf.t := {| pf.inet := None; pf.inet6 := None |}.

(** The operations a caller can ask of a backend. *)
Inductive Operation : Type :=
| OpInit
| OpShutDown
| OpMutate (m : Mutation) (d : Decision).

Definition perform (p : pf.t) (op : Operation) : M error :=
  match op with
  | OpInit => pf.Init p
  | OpShutDown => pf.ShutDown p
  | OpMutate m d => backendOp m p d
  end.

(** * Properties *)

(** ** Substrings *)

Section Substrings.

Lemma HasPrefix_app (p s : string) : strings.HasPrefix (p ++ s) p = true.
Proof.
  induction p as [|c p IH]; simpl.
  - destruct s; reflexivity.
  - rewrite Ascii.eqb_refl, IH. reflexivity.
Qed.

Lemma HasPrefix_split (s p : string) :
  strings.HasPrefix s p = true -> exists b, s = p ++ b.
Proof.
  revert s. induction p as [|c p IH]; intros s H.
  - exists s. reflexivity.
  - destruct s as [|d s]; simpl in H; [discriminate|].
    apply andb_true_iff in H. destruct H as [Hc Hp].
    apply Ascii.eqb_eq in Hc. subst d.
    destruct (IH s Hp) as [b ->]. exists b. reflexivity.
Qed.

Lemma Contains_here (sub b : string) :
  strings.Contains (sub ++ b) sub = true.
Proof.
  assert (H : forall s, strings.HasPrefix s sub = true ->
                        strings.Contains s sub = true).
  { intros [|c s] H; simpl in *; rewrite H; reflexivity. }
  apply H, HasPrefix_app.
Qed.

Lemma Contains_skip (c : ascii) (s sub : string) :
  strings.Contains s sub = true -> strings.Contains (String c s) sub = true.
Proof.
  intros H. simpl. rewrite H. apply orb_true_r.
Qed.

Lemma Contains_app (a s sub : string) :
  strings.Contains s sub = true -> strings.Contains (a ++ s) sub = true.
Proof.
  intros H. induction a as [|c a IH]; simpl; [exact H|].
  change (strings.Contains (String c (a ++ s)) sub = true).
  apply Contains_skip, IH.
Qed.

(** [Contains] decides the substring relation. *)
Lemma Contains_spec (s sub : string) :
  strings.Contains s sub = true <-> exists a b, s = a ++ sub ++ b.
Proof.
  split.
  - induction s as [|c s IH]; simpl; intros H.
    + rewrite orb_false_r in H.
      destruct (HasPrefix_split "" sub H) as [b Hb]. exists "", b. exact Hb.
    + apply orb_true_iff in H. destruct H as [H|H].
      * destruct (HasPrefix_split (String c s) sub H) as [b Hb].
        exists "", b. exact Hb.
      * destruct (IH H) as (a & b & ->). exists (String c a), b. reflexivity.
  - intros (a & b & ->). apply Contains_app, Contains_here.
Qed.

Lemma append_assoc3 (a b c : string) : (a ++ b) ++ c = a ++ b ++ c.
Proof.
  induction a as [|x a IH]; simpl; [reflexivity|]. rewrite IH. reflexivity.
Qed.

Lemma Contains_app_l (a b sub : string) :
  strings.Contains a sub = true -> strings.Contains (a ++ b) sub = true.
Proof.
  intros H. apply Contains_spec in H. destruct H as (x & y & ->).
  apply Contains_spec. exists x, (y ++ b).
  rewrite !append_assoc3. reflexivity.
Qed.

End Substrings.

(** Finds an operand inside a formatted message. *)
Ltac find_operand :=
  (apply Contains_here)
  + (apply Contains_skip; find_operand)
  + (apply Contains_app_l; find_operand)
  + (apply Contains_app; find_operand).

(** ** The factories *)

(** C9. On the platforms without Linux, the nftables and the iptables
    constructors return a nil backend together with a nil error, whatever the
    configuration. *)
Theorem stubs_return_nil_nil (config : bouncerConfig) :
  nftables.NewNFTables config = (None, None) /\
  iptables.NewIPTables config = (None, None).
Proof.
  split; reflexivity.
Qed.

(** C10. For every configuration [newPF] returns a backend and a nil error;
    the IPv4 context is always present, with table crowdsec-blacklists and
    proto inet, and the IPv6 context (table crowdsec6-blacklists, proto
    inet6) is present exactly when [DisableIPV6] is false.  No operation of
    the backend returns a changed [pf.t], so this holds for its lifetime. *)
Theorem newPF_contexts (config : bouncerConfig) :
  exists p : pf.t,
    newPF config = (Some p, None) /\
    pf.inet p = Some {| pfContext.proto := "inet";
                        pfContext.table := "crowdsec-blacklists" |} /\
    pf.inet6 p = (if DisableIPV6 config then None
                  else Some {| pfContext.proto := "inet6";
                               pfContext.table := "crowdsec6-blacklists" |}) /\
    pf.isNil (pf.inet6 p) = DisableIPV6 config.
Proof.
  destruct config as [[|]]; unfold newPF; simpl; eexists; repeat split.
Qed.

(** ** Running the operations *)

Arguments fmt.Sprintf : simpl never.
Arguments strconv.Itoa : simpl never.

(** The monad laws, at every platform and history. *)
Lemma bind_ret_l {A B : Type} (a : A) (f : A -> M B) (P : Platform)
    (h : list Event) :
  bind (ret a) f P h = f a P h.
Proof.
  unfold bind, ret. rewrite app_nil_r. destruct (f a P h). reflexivity.
Qed.

Lemma bind_ret_r {A : Type} (m : M A) (P : Platform) (h : list Event) :
  bind m ret P h = m P h.
Proof.
  unfold bind, ret. destruct (m P h) as [[a|msg] e1];
    rewrite ?app_nil_r; reflexivity.
Qed.

Lemma bind_assoc {A B C : Type} (m : M A) (f : A -> M B) (g : B -> M C)
    (P : Platform) (h : list Event) :
  bind (bind m f) g P h = bind m (fun a => bind (f a) g) P h.
Proof.
  unfold bind. destruct (m P h) as [[a|msg] e1]; [|reflexivity].
  destruct (f a P (h ++ e1)%list) as [[b|msg] e2]; [|reflexivity].
  rewrite <- app_assoc.
  destruct (g b P (h ++ e1 ++ e2)%list) as [r e3].
  rewrite app_assoc. reflexivity.
Qed.

(** A computation that emits nothing leaves what follows untouched. *)
Lemma bind_silent {A B : Type} (m : M A) (k : M B) (a : A)
    (P : Platform) (h : list Event) :
  m P h = (Done a, []) -> bind m (fun _ => k) P h = k P h.
Proof.
  intros H. unfold bind. rewrite H, app_nil_r.
  destruct (k P h). reflexivity.
Qed.

(** Unfolds an operation of a Family Context on decided inputs. *)
Ltac run_context :=
  unfold contextOp, pfContext.Add, pfContext.Delete, pfContext.checkTable,
    pfContext.shutDown, log.Debugf, log.Infof, log.Errorf, log.Printf,
    exec_CombinedOutput, time_ParseDuration, time_Seconds_int, emit;
  cbn [bind ret deref fst snd app Duration Scenario Value].

(** The outcome of an operation of a Family Context on a decision whose
    duration does not parse: the parse error, and no event. *)
Lemma contextOp_malformed (P : Platform) (h : list Event) (m : Mutation)
    (ctx : ptr pfContext.t) (d : Decision) (s e : string) :
  Duration d = Some s ->
  snd (parseDuration P s) = Some e ->
  contextOp m ctx d P h = (Done (Some e), []).
Proof.
  intros Hd He. destruct m; run_context; rewrite Hd; cbn [bind ret deref];
    destruct (parseDuration P s) as [dur err]; cbn in He |- *;
    subst err; reflexivity.
Qed.


Arguments exec.String : simpl never.
Arguments exec.Command : simpl never.

(** Unfolds [fmt.Sprintf] on a literal format. *)
Ltac format_message :=
  cbv -[String.append strings.Contains exec.String strconv.Itoa seconds
        pfContext.table];
  cbn [String.append].

(** Splits on what the host answers to the next tool invocation. *)
Ltac host_answers out e :=
  match goal with
  | |- context [combinedOutput ?P ?h ?c] =>
      destruct (combinedOutput P h c) as [out [e|]];
      cbn [bind ret deref fst snd app]
  end.

Lemma In_EvRun_invocations (c : exec.Cmd) (out : string) (err : error)
    (evs : list Event) :
  In (EvRun c out err) evs -> In c (invocations evs).
Proof.
  induction evs as [|ev evs IH]; simpl; [tauto|].
  intros [->|H]; [left; reflexivity|].
  destruct ev; simpl; auto.
Qed.

(** *** One operation of a Family Context *)

(** On a decision that parses, an operation of a Family Context logs two
    debug lines, runs the one invocation, logs the failure if there is one,
    and returns nil. *)
Lemma contextOp_run (P : Platform) (h : list Event) (m : Mutation)
    (c : pfContext.t) (d : Decision) (s v sc : string) :
  Duration d = Some s ->
  snd (parseDuration P s) = None ->
  Value d = Some v ->
  Scenario d = Some sc ->
  exists msg1 msg2 out err tail,
    contextOp m (Some c) d P h =
      (Done None,
       EvLog DebugLevel msg1 :: EvLog DebugLevel msg2
         :: EvRun (invocationOf m (pfContext.table c) v) out err :: tail) /\
    match err with
    | Some e => exists msg,
        tail = [EvLog InfoLevel msg] /\ strings.Contains msg out = true
    | None => tail = []
    end.
Proof.
  intros Hd He Hv Hs.
  destruct m; run_context; rewrite Hd, Hv, Hs; cbn [bind ret deref];
    destruct (parseDuration P s) as [dur err]; cbn in He |- *; subst err;
    cbn [bind ret deref fst snd app]; host_answers out e;
    do 5 eexists; (split; [reflexivity|]); cbn beta iota;
    try reflexivity;
    eexists; (split; [reflexivity|]); format_message; find_operand.
Qed.

(** An operation of a Family Context that ran the tool had a context and a
    decision with every field present and a duration that parses. *)
Lemma contextOp_cases (P : Platform) (h : list Event) (m : Mutation)
    (ctx : ptr pfContext.t) (d : Decision) :
  invocations (events (contextOp m ctx d) P h) = [] \/
  exists c s v sc,
    ctx = Some c /\ Duration d = Some s /\ snd (parseDuration P s) = None /\
    Value d = Some v /\ Scenario d = Some sc.
Proof.
  destruct d as [[s|] [sc|] [v|]], ctx as [c|];
    try (left; destruct m; reflexivity);
    destruct (snd (parseDuration P s)) as [e|] eqn:He;
    try (left; unfold events;
         erewrite contextOp_malformed by (try reflexivity; exact He);
         reflexivity);
    try (right; exists c, s, v, sc; repeat split; assumption);
    left; destruct m; unfold events; run_context;
    destruct (parseDuration P s) as [dur err]; cbn in He |- *; subst err;
    cbn [bind ret deref fst snd app]; reflexivity.
Qed.

(** *** Routing in the backend *)


Lemma backendOp_delegates (P : Platform) (h : list Event) (m : Mutation)
    (p : pf.t) (d : Decision) (v : string) (ctx : ptr pfContext.t) :
  Value d = Some v ->
  delegate m p v = Some ctx ->
  exists wrap,
    outcome (backendOp m p d) P h = wrapped wrap (outcome (contextOp m ctx d) P h) /\
    events (backendOp m p d) P h = events (contextOp m ctx d) P h.
Proof.
  intros Hv Hr. unfold outcome, events.
  destruct m; unfold backendOp, pf.Add, pf.Delete, delegate in *;
    rewrite Hv; cbn [bind ret deref]; rewrite app_nil_r;
    destruct (strings.Contains v ":"); cbn [andb] in *;
    destruct (pf.inet6 p) as [c6|] eqn:H6; cbn [pf.isNil negb] in *;
    try discriminate; injection Hr as <-; eexists;
    unfold bind, contextOp;
    match goal with
    | |- context [pfContext.Add ?c d P h] =>
        destruct (pfContext.Add c d P h) as [[[e|]|msg] evs]
    | |- context [pfContext.Delete ?c d P h] =>
        destruct (pfContext.Delete c d P h) as [[[e|]|msg] evs]
    end;
    cbn [ret fst snd app wrapped]; rewrite ?app_nil_r; split; reflexivity.
Qed.

(** [Delete] drops an IPv6 decision when IPv6 is disabled: success, a debug
    note, and no tool invocation. *)
Lemma Delete_drops_ipv6_when_disabled (P : Platform) (h : list Event)
    (p : pf.t) (d : Decision) (v : string) :
  Value d = Some v ->
  strings.Contains v ":" = true ->
  pf.inet6 p = None ->
  outcome (pf.Delete p d) P h = Done None /\
  invocations (events (pf.Delete p d) P h) = [].
Proof.
  intros Hv Hc H6. unfold outcome, events, pf.Delete.
  rewrite Hv, H6. cbn [bind ret deref]. rewrite Hc. split; reflexivity.
Qed.

(** ** Add and Delete *)

(** C5. A decision whose duration fails to parse makes [Add], and likewise
    [Delete], of a Family Context return the parse error before any tool
    invocation: the call emits no event at all, so whatever is done next
    runs as if the call had not been made.  The backend operation that
    delegated to the context returns an error too, without any event. *)
Theorem malformed_duration_rejected (P : Platform) (h : list Event)
    (m : Mutation) (ctx : ptr pfContext.t) (d : Decision) (s e : string) :
  Duration d = Some s ->
  snd (parseDuration P s) = Some e ->
  outcome (contextOp m ctx d) P h = Done (Some e) /\
  events (contextOp m ctx d) P h = [] /\
  (forall (A : Type) (next : M A),
     bind (contextOp m ctx d) (fun _ => next) P h = next P h) /\
  (forall (p : pf.t) (v : string),
     Value d = Some v -> delegate m p v = Some ctx ->
     exists msg,
       outcome (backendOp m p d) P h = Done (Some msg) /\
       events (backendOp m p d) P h = []).
Proof.
  intros Hd He. pose proof (contextOp_malformed P h m ctx d s e Hd He) as H.
  split; [|split; [|split]].
  - unfold outcome. rewrite H. reflexivity.
  - unfold events. rewrite H. reflexivity.
  - intros A next. exact (bind_silent _ next _ P h H).
  - intros p v Hv Hr.
    destruct (backendOp_delegates P h m p d v ctx Hv Hr) as (wrap & Ho & Hev).
    exists wrap. rewrite Ho, Hev. unfold outcome, events. rewrite H.
    split; reflexivity.
Qed.

(** The reference parser rejects the duration of the scenario. *)
Lemma malformed_duration_rejected_witness :
  outcome (contextOp Insert (pf.inet inetOnly)
             (banOf "203.0.113.7" "not-a-duration")) goodHost [] =
    Done (Some ("time: invalid duration " ++ time.quote "not-a-duration")) /\
  events (contextOp Insert (pf.inet inetOnly)
            (banOf "203.0.113.7" "not-a-duration")) goodHost [] = [] /\
  exists msg,
    outcome (pf.Add inetOnly (banOf "203.0.113.7" "not-a-duration"))
            goodHost [] = Done (Some msg) /\
    events (pf.Add inetOnly (banOf "203.0.113.7" "not-a-duration"))
           goodHost [] = [].
Proof.
  destruct (malformed_duration_rejected goodHost [] Insert (pf.inet inetOnly)
              (banOf "203.0.113.7" "not-a-duration") "not-a-duration"
              ("time: invalid duration " ++ time.quote "not-a-duration")
              eq_refl eq_refl) as (Ho & Hev & _ & Hb).
  split; [exact Ho|]. split; [exact Hev|].
  exact (Hb inetOnly "203.0.113.7" eq_refl eq_refl).
Defined.



Lemma familyContext_delegate (m : Mutation) (p : pf.t) (v : string)
    (c : pfContext.t) :
  familyContext p v = Some c -> delegate m p v = Some (Some c).
Proof.
  unfold familyContext, delegate.
  destruct m, (strings.Contains v ":"), (pf.inet6 p);
    cbn [andb negb pf.isNil]; intros H; try discriminate;
    rewrite <- ?H; try reflexivity; congruence.
Qed.

(** C3, as amended. For every decision whose three fields are present,
    whose duration parses and whose family has its context enabled, [Add]
    and [Delete] return nil and issue exactly one invocation, the add or the
    delete of the decision's address on the table of that family's own
    context: the IPv4 table for an address without a colon, the IPv6 table
    for an address with one. *)
Theorem one_invocation_on_own_table (P : Platform) (h : list Event)
    (m : Mutation) (p : pf.t) (d : Decision) (c : pfContext.t)
    (s v sc : string) :
  Value d = Some v ->
  Duration d = Some s ->
  snd (parseDuration P s) = None ->
  Scenario d = Some sc ->
  familyContext p v = Some c ->
  outcome (backendOp m p d) P h = Done None /\
  invocations (events (backendOp m p d) P h) =
    [invocationOf m (pfContext.table c) v].
Proof.
  intros Hv Hd He Hs Hf.
  destruct (backendOp_delegates P h m p d v (Some c) Hv
              (familyContext_delegate m p v c Hf)) as (wrap & Ho & Hev).
  destruct (contextOp_run P h m c d s v sc Hd He Hv Hs)
    as (msg1 & msg2 & out & err & tail & Hrun & Htail).
  rewrite Ho, Hev. unfold outcome, events. rewrite Hrun. cbn [fst snd wrapped].
  split; [reflexivity|]. cbn [invocations]. f_equal.
  destruct err as [e|].
  - destruct Htail as (msg & -> & _). reflexivity.
  - subst tail. reflexivity.
Qed.

(** The two scenarios: an IPv4 ban without IPv6, an IPv6 ban with it. *)
Lemma one_invocation_on_own_table_witness :
  invocations (events (pf.Add inetOnly (banOf "203.0.113.7" "4h")) goodHost [])
    = [addOf "crowdsec-blacklists" "203.0.113.7"] /\
  invocations (events (pf.Delete inetOnly (banOf "203.0.113.7" "4h")) goodHost [])
    = [deleteOf "crowdsec-blacklists" "203.0.113.7"] /\
  invocations (events (pf.Add dualStack (banOf "2001:db8::1" "4h")) goodHost [])
    = [addOf "crowdsec6-blacklists" "2001:db8::1"].
Proof.
  split; [|split].
  - exact (proj2 (one_invocation_on_own_table goodHost [] Insert inetOnly
                    (banOf "203.0.113.7" "4h") _ "4h" "203.0.113.7" "bruteforce"
                    eq_refl eq_refl eq_refl eq_refl eq_refl)).
  - exact (proj2 (one_invocation_on_own_table goodHost [] Remove inetOnly
                    (banOf "203.0.113.7" "4h") _ "4h" "203.0.113.7" "bruteforce"
                    eq_refl eq_refl eq_refl eq_refl eq_refl)).
  - exact (proj2 (one_invocation_on_own_table goodHost [] Insert dualStack
                    (banOf "2001:db8::1" "4h") _ "4h" "2001:db8::1" "bruteforce"
                    eq_refl eq_refl eq_refl eq_refl eq_refl)).
Defined.

(** C3, as stated, fails: the decision below is routed to the enabled IPv4
    context, yet its duration does not parse, so [Add] and [Delete] return an
    error and issue no invocation instead of exactly one. *)
Lemma unparsable_duration_issues_no_invocation :
  familyContext inetOnly "203.0.113.7" = pf.inet inetOnly /\
  pf.isNil (pf.inet inetOnly) = false /\
  invocations (events (pf.Add inetOnly (banOf "203.0.113.7" "not-a-duration"))
                      goodHost []) = [] /\
  invocations (events (pf.Delete inetOnly (banOf "203.0.113.7" "not-a-duration"))
                      goodHost []) = [] /\
  invocations (events (pf.Add inetOnly (banOf "203.0.113.7" "not-a-duration"))
                      goodHost [])
    <> [addOf "crowdsec-blacklists" "203.0.113.7"].
Proof.
  repeat split; try reflexivity. vm_compute. discriminate.
Qed.

(** C1, at the failing input. With IPv6 disabled, [Add] of an IPv6 address
    is not dropped: it reaches the IPv4 context, which runs the tool on the
    IPv4 table.  [Delete] of the same decision is dropped. *)
Theorem Add_ipv6_disabled_reaches_ipv4_table :
  newPF {| DisableIPV6 := true |} = (Some inetOnly, None) /\
  strings.Contains "2001:db8::1" ":" = true /\
  pf.inet6 inetOnly = None /\
  invocations (events (pf.Add inetOnly (banOf "2001:db8::1" "4h")) goodHost [])
    = [addOf "crowdsec-blacklists" "2001:db8::1"] /\
  invocations (events (pf.Delete inetOnly (banOf "2001:db8::1" "4h")) goodHost [])
    = [].
Proof.
  repeat split; reflexivity.
Qed.

(** With IPv6 disabled, [Add] hands every decision to the IPv4 context,
    whatever its address. *)
Lemma Add_ipv6_disabled_delegates_to_inet (p : pf.t) (v : string) :
  pf.inet6 p = None -> delegate Insert p v = Some (pf.inet p).
Proof.
  intros H. unfold delegate. rewrite H. cbn [pf.isNil negb].
  rewrite andb_false_r. reflexivity.
Qed.

(** X13. Hence, on every host, [Add] of a well-formed IPv6 decision runs
    the add on the IPv4 table when IPv6 is disabled. *)
Lemma Add_ipv6_disabled_runs_on_inet_table (P : Platform) (h : list Event)
    (p : pf.t) (d : Decision) (c4 : pfContext.t) (s v sc : string) :
  pf.inet6 p = None ->
  pf.inet p = Some c4 ->
  Value d = Some v ->
  Duration d = Some s ->
  snd (parseDuration P s) = None ->
  Scenario d = Some sc ->
  invocations (events (pf.Add p d) P h) = [addOf (pfContext.table c4) v].
Proof.
  intros H6 H4 Hv Hd He Hs.
  pose proof (Add_ipv6_disabled_delegates_to_inet p v H6) as Hr.
  rewrite H4 in Hr.
  destruct (backendOp_delegates P h Insert p d v (Some c4) Hv Hr)
    as (wrap & _ & Hev).
  destruct (contextOp_run P h Insert c4 d s v sc Hd He Hv Hs)
    as (msg1 & msg2 & out & err & tail & Hrun & Htail).
  change (backendOp Insert p d) with (pf.Add p d) in Hev.
  rewrite Hev. unfold events. rewrite Hrun. cbn [snd invocations]. f_equal.
  destruct err as [e|].
  - destruct Htail as (msg & -> & _). reflexivity.
  - subst tail. reflexivity.
Qed.

(** ** Init and ShutDown *)

Ltac go_reduce :=
  lazy beta iota zeta delta
    [bind ret deref fst snd negb pf.isNil Duration Scenario Value
     errors.Wrapf errors.Errorf fmt.Errorf];
  cbn [app].

(** Unfolds a lifecycle operation down to the calls to the host. *)
Ltac run_backend :=
  unfold outcome, events, pf.Init, pf.ShutDown, os_Stat, exec_LookPath,
    contextOp, pfContext.Add, pfContext.Delete, pfContext.checkTable,
    pfContext.shutDown, log.Debugf, log.Infof, log.Errorf, log.Printf,
    exec_CombinedOutput, time_ParseDuration, time_Seconds_int, emit;
  go_reduce.

(** Splits on the next answer of the host, or on the next substring test. *)
Ltac host_step :=
  match goal with
  | |- context [stat ?P ?h ?n] =>
      destruct (stat P h n) as [?e|] eqn:?Hstat
  | |- context [lookPath ?P ?h ?n] =>
      destruct (lookPath P h n) as [?e|] eqn:?Hlook
  | |- context [combinedOutput ?P ?h ?c] =>
      destruct (combinedOutput P h c) as [?out [?e|]]
  | |- context [strings.Contains ?a ?b] =>
      destruct (strings.Contains a b) eqn:?Hc
  end;
  go_reduce.

(** Goes through the members of a literal list of events. *)
Ltac in_cases H :=
  simpl In in H;
  repeat (destruct H as [H|H]; [try discriminate H|]);
  try contradiction.

Ltac pick_in := (left; reflexivity) + (right; pick_in).

(** C8. [ShutDown] flushes the table of every enabled Family Context exactly
    once, the IPv4 one first and the IPv6 one when it is present, whatever
    each flush answers, and returns nil; a flush that fails is logged at the
    error level with its captured output. *)
Theorem ShutDown_flushes_each_once (P : Platform) (h : list Event)
    (p : pf.t) (c4 : pfContext.t) :
  pf.inet p = Some c4 ->
  outcome (pf.ShutDown p) P h = Done None /\
  invocations (events (pf.ShutDown p) P h) =
    flushOf (pfContext.table c4) ::
    match pf.inet6 p with
    | Some c6 => [flushOf (pfContext.table c6)]
    | None => []
    end /\
  forall cmd out e,
    In (EvRun cmd out (Some e)) (events (pf.ShutDown p) P h) ->
    exists msg,
      In (EvLog ErrorLevel msg) (events (pf.ShutDown p) P h) /\
      strings.Contains msg out = true.
Proof.
  intros H4. unfold outcome, events, pf.ShutDown. rewrite H4.
  destruct (pf.inet6 p) as [c6|]; run_backend; repeat host_step;
    (split; [reflexivity|]); (split; [reflexivity|]);
    intros cmd o e' H; in_cases H; injection H as <- <- <-;
    eexists; (split; [pick_in | solve [format_message; find_operand]]).
Qed.

(** A host on which every flush fails. *)
Lemma ShutDown_flushes_each_once_witness :
  outcome (pf.ShutDown dualStack) failingHost [] = Done None /\
  invocations (events (pf.ShutDown dualStack) failingHost []) =
    [flushOf "crowdsec-blacklists"; flushOf "crowdsec6-blacklists"].
Proof.
  destruct (ShutDown_flushes_each_once failingHost [] dualStack _ eq_refl)
    as (Ho & Hi & _).
  split; [exact Ho | exact Hi].
Defined.

(** C6. If the device path does not exist, [Init] returns an error and the
    only event of the run is the failed [os.Stat]: no tool invocation is
    made.  If the device exists, the tool is looked up on the path, once and
    without being run; if the lookup fails, [Init] returns an error and the
    run ends there.  A run of [Init] never looks the tool up twice. *)
Theorem Init_preconditions (P : Platform) (h : list Event) (p : pf.t) :
  (forall e,
     stat P h pfDevice = Some e ->
     outcome (pf.Init p) P h =
       Done (Some (fmt.Sprintf "%s device not found: %s" [pfDevice; e])) /\
     events (pf.Init p) P h = [EvStat pfDevice (Some e)]) /\
  (forall e,
     stat P h pfDevice = None ->
     lookPath P (h ++ [EvStat pfDevice None]) pfctlCmd = Some e ->
     outcome (pf.Init p) P h =
       Done (Some (fmt.Sprintf "%s command not found: %s" [pfctlCmd; e])) /\
     events (pf.Init p) P h =
       [EvStat pfDevice None; EvLookPath pfctlCmd (Some e)]) /\
  lookups (events (pf.Init p) P h) =
    match stat P h pfDevice with
    | Some _ => []
    | None => [pfctlCmd]
    end.
Proof.
  split; [|split].
  - intros e Hs. unfold outcome, events, pf.Init, os_Stat.
    go_reduce. rewrite Hs. split; reflexivity.
  - intros e Hs Hl. unfold outcome, events, pf.Init, os_Stat, exec_LookPath.
    go_reduce. rewrite Hs. go_reduce. rewrite Hl. split; reflexivity.
  - unfold events, pf.Init.
    destruct (pf.inet p) as [c4|], (pf.inet6 p) as [c6|];
      run_backend; repeat host_step; reflexivity.
Qed.

(** A host without the device, and a host without the tool. *)
Lemma Init_preconditions_witness :
  (outcome (pf.Init inetOnly) (simHost false true "" None "" None) [] =
     Done (Some "/dev/pf device not found: stat /dev/pf: no such file or directory") /\
   invocations (events (pf.Init inetOnly) (simHost false true "" None "" None) [])
     = []) /\
  invocations (events (pf.Init inetOnly) (simHost true false "" None "" None) [])
    = [].
Proof.
  pose proof (Init_preconditions (simHost false true "" None "" None) []
                inetOnly) as (Hdev & _ & _).
  pose proof (Init_preconditions (simHost true false "" None "" None) []
                inetOnly) as (_ & Htool & _).
  destruct (Hdev _ eq_refl) as [Ho Hev].
  destruct (Htool _ eq_refl eq_refl) as [_ Hev'].
  rewrite Hev, Hev'. split; [split|]; [exact Ho | reflexivity | reflexivity].
Defined.

(** C7, as amended. The table check runs the tables query, once, and
    returns nil exactly when the query exits zero and its output contains
    the table name of the context; a query that exits non-zero is an error
    whatever it printed.  When a tables query of [Init] exits zero with an
    output that lacks the name of the IPv4 table, [Init] returns an error
    whose text contains that name. *)
Theorem table_check (P : Platform) (h : list Event) (c : pfContext.t) :
  (exists msg out err,
     events (pfContext.checkTable (Some c)) P h =
       [EvLog InfoLevel msg; EvRun tablesQuery out err] /\
     outcome (pfContext.checkTable (Some c)) P h =
       Done match err with
            | Some e =>
                Some (fmt.Sprintf "pfctl error : %v - %s" [e; out] ++ ": " ++ e)
            | None =>
                if strings.Contains out (pfContext.table c) then None
                else Some (fmt.Sprintf "table %s doesn't exist"
                                       [pfContext.table c])
            end /\
     (outcome (pfContext.checkTable (Some c)) P h = Done None <->
      err = None /\ strings.Contains out (pfContext.table c) = true)) /\
  (forall (p : pf.t) (out : string),
     pf.inet p = Some c ->
     In (EvRun tablesQuery out None) (events (pf.Init p) P h) ->
     strings.Contains out (pfContext.table c) = false ->
     exists msg,
       outcome (pf.Init p) P h = Done (Some msg) /\
       strings.Contains msg (pfContext.table c) = true).
Proof.
  split.
  - run_backend. host_answers out e; go_reduce.
    + do 3 eexists. split; [reflexivity|]. split; [reflexivity|].
      split; [discriminate | intros [H _]; discriminate].
    + destruct (strings.Contains out (pfContext.table c)) eqn:Hc; go_reduce;
        do 3 eexists; (split; [reflexivity|]); rewrite Hc;
        (split; [reflexivity|]); split; try discriminate;
        try (split; reflexivity); try reflexivity; intros [_ H]; discriminate.
  - intros p out H4 Hin Hno. revert Hin.
    unfold outcome, events, pf.Init. rewrite H4.
    destruct (pf.inet6 p) as [c6|]; run_backend; repeat host_step;
      intros Hin; in_cases Hin;
      try (injection Hin as ->; congruence);
      eexists; (split; [reflexivity|]); format_message; find_operand.
Qed.

(** A host whose tables query succeeds without listing the table. *)
Lemma table_check_witness :
  exists msg,
    outcome (pf.Init inetOnly) (simHost true true "other-table" None "" None) []
      = Done (Some msg) /\
    strings.Contains msg "crowdsec-blacklists" = true.
Proof.
  destruct (table_check (simHost true true "other-table" None "" None) []
              {| pfContext.proto := "inet";
                 pfContext.table := "crowdsec-blacklists" |}) as [_ H].
  apply (H inetOnly "other-table" eq_refl).
  - vm_compute. do 5 right. left. reflexivity.
  - reflexivity.
Defined.


(** C7, as stated, fails: the captured output of the query contains the
    table name, and yet the check does not succeed. *)
Lemma listed_table_rejected_on_failed_query :
  events (pfContext.checkTable (pf.inet inetOnly)) brokenQueryHost [] =
    [EvLog InfoLevel "Checking pf table: crowdsec-blacklists";
     EvRun tablesQuery "crowdsec-blacklists" (Some "exit status 1")] /\
  strings.Contains "crowdsec-blacklists" "crowdsec-blacklists" = true /\
  outcome (pfContext.checkTable (pf.inet inetOnly)) brokenQueryHost [] <>
    Done None.
Proof.
  split; [reflexivity|]. split; [reflexivity|]. vm_compute. discriminate.
Qed.


(** C2, at the failing input. With both families enabled and a host on
    which the IPv6 table does not exist, [Init] returns nil: its IPv6 block
    flushes and checks the IPv4 table a second time, and the IPv6 table is
    neither flushed nor verified. *)
Theorem Init_ipv6_block_checks_ipv4_table :
  newPF {| DisableIPV6 := false |} = (Some dualStack, None) /\
  strings.Contains "crowdsec-blacklists" "crowdsec6-blacklists" = false /\
  outcome (pf.Init dualStack) inetTableOnlyHost [] = Done None /\
  invocations (events (pf.Init dualStack) inetTableOnlyHost []) =
    [flushOf "crowdsec-blacklists"; tablesQuery;
     flushOf "crowdsec-blacklists"; tablesQuery].
Proof.
  repeat split; reflexivity.
Qed.

(** X12. Whatever the host answers, [Init] runs a prefix of the same four
    invocations, all on the IPv4 table; without IPv6, of the first two. *)
Lemma Init_invocations (P : Platform) (h : list Event) (p : pf.t)
    (c4 : pfContext.t) :
  pf.inet p = Some c4 ->
  exists k,
    invocations (events (pf.Init p) P h) =
      firstn k [flushOf (pfContext.table c4); tablesQuery;
                flushOf (pfContext.table c4); tablesQuery] /\
    (pf.inet6 p = None -> (k <= 2)%nat).
Proof.
  intros H4. unfold events, pf.Init. rewrite H4.
  destruct (pf.inet6 p) as [c6|]; run_backend; repeat host_step;
    cbn [invocations];
    first [ exists 0%nat; split; [reflexivity | intros; lia]
          | exists 2%nat; split; [reflexivity | intros; lia]
          | exists 4%nat; split; [reflexivity | intros; discriminate] ].
Qed.

(** * Further properties of the backend *)

Ltac ops_reduce :=
  lazy beta iota zeta delta
    [bind ret deref fst snd negb andb pf.isNil pf.inet pf.inet6
     Duration Scenario Value errors.Wrapf errors.Errorf fmt.Errorf];
  cbn [app].

(** Unfolds any operation of the backend down to the calls to the host. *)
Ltac run_ops :=
  unfold outcome, events, perform, backendOp, pf.Add, pf.Delete, pf.Init,
    pf.ShutDown, os_Stat, exec_LookPath, contextOp, pfContext.Add,
    pfContext.Delete, pfContext.checkTable, pfContext.shutDown, log.Debugf,
    log.Infof, log.Errorf, log.Printf, exec_CombinedOutput,
    time_ParseDuration, time_Seconds_int, emit;
  ops_reduce.

(** Splits on the next answer of the parser or of the host, or on the next
    substring test. *)
Ltac world_step :=
  match goal with
  | |- context [parseDuration ?P ?s] =>
      destruct (parseDuration P s) as [?dur [?e|]]
  | |- context [stat ?P ?h ?n] =>
      destruct (stat P h n) as [?e|] eqn:?Hstat
  | |- context [lookPath ?P ?h ?n] =>
      destruct (lookPath P h n) as [?e|] eqn:?Hlook
  | |- context [combinedOutput ?P ?h ?c] =>
      destruct (combinedOutput P h c) as [?out [?e|]]
  | |- context [strings.Contains ?a ?b] =>
      destruct (strings.Contains a b) eqn:?Hc
  end;
  ops_reduce.

Lemma invocations_app (a b : list Event) :
  invocations (a ++ b) = (invocations a ++ invocations b)%list.
Proof.
  induction a as [|[] a IH]; simpl; rewrite ?IH; reflexivity.
Qed.

(** ** What a mutation runs *)

(** A mutation runs nothing, or it runs the one command of the context the
    code delegates to, on a decision with every field present and a duration
    that parses. *)
Lemma backendOp_cases (P : Platform) (h : list Event) (m : Mutation)
    (p : pf.t) (d : Decision) :
  invocations (events (backendOp m p d) P h) = [] \/
  exists c s v sc,
    Value d = Some v /\ Duration d = Some s /\
    snd (parseDuration P s) = None /\ Scenario d = Some sc /\
    delegate m p v = Some (Some c) /\
    invocations (events (backendOp m p d) P h) =
      [invocationOf m (pfContext.table c) v].
Proof.
  destruct (Value d) as [v|] eqn:Hv.
  2:{ left. destruct m; unfold events, backendOp, pf.Add, pf.Delete;
        rewrite Hv; reflexivity. }
  destruct (delegate m p v) as [ctx|] eqn:Hr.
  - destruct (backendOp_delegates P h m p d v ctx Hv Hr) as (wrap & _ & Hev).
    rewrite Hev.
    destruct (contextOp_cases P h m ctx d)
      as [Hn | (c & s & v' & sc & -> & Hd & He & Hv' & Hs)]; [left; exact Hn|].
    right. assert (v' = v) by congruence. subst v'.
    exists c, s, v, sc. do 5 (split; [first [assumption | reflexivity]|]).
    destruct (contextOp_run P h m c d s v sc Hd He Hv Hs)
      as (msg1 & msg2 & out & err & tail & Hrun & Htail).
    unfold events. rewrite Hrun. cbn [snd invocations]. f_equal.
    destruct err as [e|].
    + destruct Htail as (msg & -> & _). reflexivity.
    + subst tail. reflexivity.
  - left. destruct m; unfold delegate in Hr.
    + destruct (strings.Contains v ":" && negb (pf.isNil (pf.inet6 p)));
        discriminate.
    + destruct (strings.Contains v ":") eqn:Hc; [|discriminate].
      destruct (pf.inet6 p) as [c6|] eqn:H6; [discriminate|].
      exact (proj2 (Delete_drops_ipv6_when_disabled P h p d v Hv Hc H6)).
Qed.

(** X1. A mutation never runs more than one command, and the command it
    runs is the add (for [Add]) or the delete (for [Delete]) of the
    decision's own address on the table of a context of the backend. *)
Theorem mutation_runs_at_most_one_command (P : Platform) (h : list Event)
    (m : Mutation) (p : pf.t) (d : Decision) (cmd : exec.Cmd) :
  In cmd (invocations (events (backendOp m p d) P h)) ->
  invocations (events (backendOp m p d) P h) = [cmd] /\
  exists c v,
    Value d = Some v /\
    (pf.inet p = Some c \/ pf.inet6 p = Some c) /\
    cmd = invocationOf m (pfContext.table c) v.
Proof.
  intros Hin.
  destruct (backendOp_cases P h m p d)
    as [Hn | (c & s & v & sc & Hv & _ & _ & _ & Hr & Hi)].
  - rewrite Hn in Hin. destruct Hin.
  - rewrite Hi in Hin |- *. destruct Hin as [<-|[]].
    split; [reflexivity|]. exists c, v. repeat split; try assumption.
    destruct m; unfold delegate in Hr.
    + destruct (strings.Contains v ":" && negb (pf.isNil (pf.inet6 p)));
        injection Hr as Hr; auto.
    + destruct (strings.Contains v ":");
        [destruct (negb (pf.isNil (pf.inet6 p))); [|discriminate]|];
        injection Hr as Hr; auto.
Qed.

Lemma mutation_runs_at_most_one_command_witness :
  invocations (events (pf.Delete dualStack (banOf "2001:db8::1" "4h"))
                      goodHost []) =
    [deleteOf "crowdsec6-blacklists" "2001:db8::1"].
Proof.
  exact (proj1 (mutation_runs_at_most_one_command goodHost [] Remove dualStack
                  (banOf "2001:db8::1" "4h")
                  (deleteOf "crowdsec6-blacklists" "2001:db8::1")
                  (or_introl eq_refl))).
Defined.

(** X2. A decision with a nil [Value], [Duration] or [Scenario] never
    reaches the tool: neither [Add] nor [Delete] runs a command on it. *)
Theorem nil_field_never_reaches_tool (P : Platform) (h : list Event)
    (m : Mutation) (p : pf.t) (d : Decision) :
  Value d = None \/ Duration d = None \/ Scenario d = None ->
  invocations (events (backendOp m p d) P h) = [].
Proof.
  intros Hnil.
  destruct (backendOp_cases P h m p d)
    as [Hn | (c & s & v & sc & Hv & Hd & _ & Hs & _)]; [exact Hn|].
  destruct Hnil as [H|[H|H]]; congruence.
Qed.

Lemma nil_field_never_reaches_tool_witness :
  invocations
    (events (pf.Add dualStack
               {| Duration := Some "4h"; Scenario := None;
                  Value := Some "203.0.113.7" |}) goodHost []) = [].
Proof.
  apply (nil_field_never_reaches_tool goodHost [] Insert dualStack).
  right. right. reflexivity.
Defined.

(** X3. [Delete] of an address with a colon, on a backend without IPv6, is
    a no-op that succeeds: its only event is one debug line.  The duration
    is not even parsed, so this holds for a nil or malformed [Duration] and
    for a nil IPv4 context as well. *)
Theorem Delete_ipv6_disabled_is_noop (P : Platform) (h : list Event)
    (p : pf.t) (d : Decision) (v : string) :
  Value d = Some v ->
  strings.Contains v ":" = true ->
  pf.inet6 p = None ->
  pf.Delete p d P h =
    (Done None,
     [EvLog DebugLevel
        (fmt.Sprintf "not removing '%s' because ipv6 is disabled" [v])]).
Proof.
  intros Hv Hc H6. unfold pf.Delete. rewrite Hv, H6.
  cbn [bind ret deref]. rewrite Hc. reflexivity.
Qed.

Lemma Delete_ipv6_disabled_is_noop_witness :
  pf.Delete pfCtx
    {| Duration := None; Scenario := None; Value := Some "2001:db8::1" |}
    goodHost [] =
  (Done None,
   [EvLog DebugLevel "not removing '2001:db8::1' because ipv6 is disabled"]).
Proof.
  exact (Delete_ipv6_disabled_is_noop goodHost [] pfCtx
           {| Duration := None; Scenario := None; Value := Some "2001:db8::1" |}
           "2001:db8::1" eq_refl eq_refl eq_refl).
Defined.

(** X4. On the zero-value backend [pfCtx] nothing is ever run, whatever
    the host and the decision: [Init] never succeeds, [ShutDown] panics on
    the nil IPv4 context, and no operation issues a tool invocation. *)
Theorem zero_backend_never_invokes (P : Platform) (h : list Event)
    (op : Operation) :
  invocations (events (perform pfCtx op) P h) = [] /\
  outcome (pf.Init pfCtx) P h <> Done None /\
  outcome (pf.ShutDown pfCtx) P h = Panic nilDeref.
Proof.
  split; [|split].
  - destruct op as [| |m d].
    + run_ops. repeat world_step; reflexivity.
    + reflexivity.
    + cbn [perform].
      destruct (backendOp_cases P h m pfCtx d)
        as [Hn | (c & s & v & sc & _ & _ & _ & _ & Hr & _)]; [exact Hn|].
      destruct m; unfold delegate in Hr; cbn in Hr;
        [rewrite andb_false_r in Hr|destruct (strings.Contains v ":")];
        discriminate.
  - run_ops. repeat world_step; discriminate.
  - reflexivity.
Qed.

(** X5. No operation of the backend runs a program other than
    [/sbin/pfctl], and only [Init] probes the file system or the search
    path: [ShutDown], [Add] and [Delete] do no path lookup. *)
Theorem only_pfctl_is_run (P : Platform) (h : list Event) (p : pf.t)
    (op : Operation) :
  (forall cmd,
     In cmd (invocations (events (perform p op) P h)) ->
     exec.Path cmd = pfctlCmd /\ hd_error (exec.Args cmd) = Some pfctlCmd) /\
  (op = OpInit \/ lookups (events (perform p op) P h) = []).
Proof.
  destruct op as [| |m d].
  - split; [|left; reflexivity].
    destruct p as [[c4|] [c6|]]; run_ops; repeat world_step;
      intros cmd Hin; cbn [invocations] in Hin; in_cases Hin; subst cmd;
      split; reflexivity.
  - split.
    + destruct p as [[c4|] [c6|]]; run_ops; repeat world_step;
        intros cmd Hin; cbn [invocations] in Hin; in_cases Hin; subst cmd;
        split; reflexivity.
    + right. destruct p as [[c4|] [c6|]]; run_ops; repeat world_step;
        reflexivity.
  - cbn [perform]. split.
    + intros cmd Hin.
      destruct (backendOp_cases P h m p d)
        as [Hn | (c & s & v & sc & _ & _ & _ & _ & _ & Hi)].
      * rewrite Hn in Hin. destruct Hin.
      * rewrite Hi in Hin. destruct Hin as [<-|[]].
        destruct m; split; reflexivity.
    + right. destruct m, d as [[s|] [sc|] [v|]], p as [[c4|] [c6|]];
        run_ops; repeat world_step; reflexivity.
Qed.

Lemma only_pfctl_is_run_witness :
  exec.Path (addOf "crowdsec-blacklists" "203.0.113.7") = "/sbin/pfctl".
Proof.
  exact (proj1 (proj1 (only_pfctl_is_run goodHost [] inetOnly
                         (OpMutate Insert (banOf "203.0.113.7" "4h")))
                  (addOf "crowdsec-blacklists" "203.0.113.7")
                  (or_introl eq_refl))).
Defined.

(** ** Init, completely *)

(** Finds, among the events, a tables query that refutes [Hq]. *)
Ltac refute_queries Hq :=
  match goal with
  | Hc : strings.Contains ?o _ = false |- _ =>
      destruct (Hq o None) as [_ Hx]; [pick_in | congruence]
  | |- _ =>
      match type of Hq with
      | context [EvRun _ ?o (Some ?e)] =>
          destruct (Hq o (Some e)) as [Hx _]; [pick_in | discriminate Hx]
      end
  end.

(** X6. [Init] succeeds exactly when the tool was found on the path (which
    is only looked up once the device exists) and every tables query of the
    run exited zero with an output that contains the name of the IPv4 table.
    What the flushes answer plays no part. *)
Theorem Init_succeeds_iff (P : Platform) (h : list Event) (p : pf.t)
    (c4 : pfContext.t) :
  pf.inet p = Some c4 ->
  (outcome (pf.Init p) P h = Done None <->
   In (EvLookPath pfctlCmd None) (events (pf.Init p) P h) /\
   forall out err,
     In (EvRun tablesQuery out err) (events (pf.Init p) P h) ->
     err = None /\ strings.Contains out (pfContext.table c4) = true).
Proof.
  intros H4. destruct p as [i4 [c6|]]; cbn [pf.inet] in H4; subst i4;
    run_ops; repeat world_step;
    (split;
     [ intros Ho; try discriminate Ho;
       (split; [pick_in|]);
       intros o er Hin; unfold tablesQuery, exec.Command in Hin;
       in_cases Hin; inversion Hin; subst;
       (split; [reflexivity | assumption])
     | intros [Hl Hq]; try reflexivity;
       first [ solve [in_cases Hl] | refute_queries Hq ] ]).
Qed.

Lemma Init_succeeds_iff_witness :
  In (EvLookPath pfctlCmd None) (events (pf.Init inetOnly) goodHost []).
Proof.
  exact (proj1 (proj1 (Init_succeeds_iff goodHost [] inetOnly _ eq_refl)
                      eq_refl)).
Defined.

(** ** What the answers of the tool cannot change *)

(** The commands of a mutation do not depend on the history. *)
Lemma backendOp_history_blind (P : Platform) (h h' : list Event)
    (m : Mutation) (p : pf.t) (d : Decision) :
  invocations (events (backendOp m p d) P h) =
    invocations (events (backendOp m p d) P h').
Proof.
  destruct m, d as [[s|] [sc|] [v|]], p as [[c4|] [c6|]];
    run_ops; repeat world_step; reflexivity.
Qed.

(** X7. What a mutation returns, and which commands it runs, do not depend
    on what the tool answers, on the history, or on anything of the host but
    the duration parser: two hosts with the same parser get the same outcome
    and the same invocations. *)
Theorem mutation_blind_to_tool_answers (P P' : Platform) (h h' : list Event)
    (m : Mutation) (p : pf.t) (d : Decision) :
  parseDuration P = parseDuration P' ->
  outcome (backendOp m p d) P h = outcome (backendOp m p d) P' h' /\
  invocations (events (backendOp m p d) P h) =
    invocations (events (backendOp m p d) P' h').
Proof.
  intros Hp.
  destruct m, d as [[s|] [sc|] [v|]], p as [[c4|] [c6|]];
    run_ops; repeat (rewrite ?Hp; world_step); split; reflexivity.
Qed.

Lemma mutation_blind_to_tool_answers_witness :
  outcome (pf.Add inetOnly (banOf "203.0.113.7" "4h")) goodHost [] =
  outcome (pf.Add inetOnly (banOf "203.0.113.7" "4h")) failingHost
          [EvStat pfDevice None].
Proof.
  exact (proj1 (mutation_blind_to_tool_answers goodHost failingHost []
                  [EvStat pfDevice None] Insert inetOnly
                  (banOf "203.0.113.7" "4h") eq_refl)).
Defined.

(** X8. Whenever [Add] or [Delete] returns an error, the text of the error
    contains the address of the decision. *)
Theorem backend_error_names_address (P : Platform) (h : list Event)
    (m : Mutation) (p : pf.t) (d : Decision) (v msg : string) :
  Value d = Some v ->
  outcome (backendOp m p d) P h = Done (Some msg) ->
  strings.Contains msg v = true.
Proof.
  intros Hv. unfold outcome.
  destruct m; unfold backendOp, pf.Add, pf.Delete;
    rewrite Hv; cbn [bind ret deref];
    destruct (strings.Contains v ":"); cbn [andb];
    destruct (pf.inet6 p) as [c6|]; cbn [pf.isNil negb];
    unfold bind;
    repeat match goal with
    | |- context [pfContext.Add ?c d P ?hh] =>
        destruct (pfContext.Add c d P hh) as [[[e|]|pmsg] evs]
    | |- context [pfContext.Delete ?c d P ?hh] =>
        destruct (pfContext.Delete c d P hh) as [[[e|]|pmsg] evs]
    end;
    unfold log.Debugf, emit; cbn [ret fst snd];
    intros H; try discriminate H;
    injection H as <-; unfold fmt.Errorf; format_message; find_operand.
Qed.

Lemma backend_error_names_address_witness :
  exists msg,
    outcome (pf.Delete inetOnly (banOf "203.0.113.7" "soon")) goodHost []
      = Done (Some msg) /\
    strings.Contains msg "203.0.113.7" = true.
Proof.
  eexists. split; [reflexivity|].
  exact (backend_error_names_address goodHost [] Remove inetOnly
           (banOf "203.0.113.7" "soon") "203.0.113.7" _ eq_refl eq_refl).
Defined.

(** ** No panic on the backends of the factory *)

(** X9. With the IPv4 context present, no operation panics on a decision
    whose three fields are present: every operation returns. *)
Theorem no_panic_on_wellformed_input (P : Platform) (h : list Event)
    (p : pf.t) (c4 : pfContext.t) (op : Operation) :
  pf.inet p = Some c4 ->
  (forall m d, op = OpMutate m d ->
     Value d <> None /\ Duration d <> None /\ Scenario d <> None) ->
  exists err, outcome (perform p op) P h = Done err.
Proof.
  intros H4 Hwf. destruct p as [i4 i6]. cbn [pf.inet] in H4. subst i4.
  destruct op as [| |m d].
  - destruct i6 as [c6|]; run_ops; repeat world_step; eexists; reflexivity.
  - destruct i6 as [c6|]; run_ops; repeat world_step; eexists; reflexivity.
  - destruct (Hwf m d eq_refl) as (Hv & Hd & Hs).
    destruct d as [[s|] [sc|] [v|]]; cbn in Hv, Hd, Hs; try congruence.
    destruct m, i6 as [c6|]; run_ops; repeat world_step;
      eexists; reflexivity.
Qed.

Lemma no_panic_on_wellformed_input_witness :
  exists err,
    outcome (pf.Add dualStack (banOf "2001:db8::1" "4h")) failingHost []
      = Done err.
Proof.
  apply (no_panic_on_wellformed_input failingHost [] dualStack _
           (OpMutate Insert (banOf "2001:db8::1" "4h")) eq_refl).
  intros m d H. injection H as <- <-. repeat split; discriminate.
Defined.

(** ** Sequences *)

(** X10. Two mutations in sequence run the commands of the first followed by
    the commands of the second, each as it would run them on its own: what
    the first did and what the tool answered to it change nothing for the
    second.  (A panic of the first would end the sequence.) *)
Theorem mutations_in_sequence (P : Platform) (h : list Event) (p : pf.t)
    (m1 m2 : Mutation) (d1 d2 : Decision) (err : error) :
  outcome (backendOp m1 p d1) P h = Done err ->
  invocations
    (events (bind (backendOp m1 p d1) (fun _ => backendOp m2 p d2)) P h) =
  (invocations (events (backendOp m1 p d1) P h) ++
   invocations (events (backendOp m2 p d2) P h))%list.
Proof.
  unfold outcome, events, bind. intros H1.
  destruct (backendOp m1 p d1 P h) as [r1 e1]. cbn [fst] in H1. subst r1.
  pose proof (backendOp_history_blind P (h ++ e1)%list h m2 p d2) as H2.
  unfold events in H2.
  destruct (backendOp m2 p d2 P (h ++ e1)%list) as [r2 e2].
  cbn [snd] in *. rewrite invocations_app, H2. reflexivity.
Qed.

(** Adding a ban and lifting it again. *)
Lemma mutations_in_sequence_witness :
  invocations
    (events (bind (pf.Add inetOnly (banOf "203.0.113.7" "4h"))
                  (fun _ => pf.Delete inetOnly (banOf "203.0.113.7" "4h")))
            failingHost []) =
  [addOf "crowdsec-blacklists" "203.0.113.7";
   deleteOf "crowdsec-blacklists" "203.0.113.7"].
Proof.
  exact (mutations_in_sequence failingHost [] inetOnly Insert Remove
           (banOf "203.0.113.7" "4h") (banOf "203.0.113.7" "4h") None eq_refl).
Defined.

(** ** More on Init *)

(** X11. When a tables query of [Init] exits non-zero, [Init] returns an
    error whose text carries both the exit error and the captured output of
    the query. *)
Theorem Init_query_failure_carries_output (P : Platform) (h : list Event)
    (p : pf.t) (out e : string) :
  In (EvRun tablesQuery out (Some e)) (events (pf.Init p) P h) ->
  exists msg,
    outcome (pf.Init p) P h = Done (Some msg) /\
    strings.Contains msg out = true /\
    strings.Contains msg e = true.
Proof.
  destruct p as [[c4|] [c6|]]; run_ops; repeat world_step;
    intros Hin; unfold tablesQuery, exec.Command in Hin; in_cases Hin;
    inversion Hin; subst;
    eexists; (split; [reflexivity|]);
    (split; format_message; find_operand).
Qed.

Lemma Init_query_failure_carries_output_witness :
  exists msg,
    outcome (pf.Init inetOnly) brokenQueryHost [] = Done (Some msg) /\
    strings.Contains msg "crowdsec-blacklists" = true /\
    strings.Contains msg "exit status 1" = true.
Proof.
  apply (Init_query_failure_carries_output brokenQueryHost [] inetOnly).
  vm_compute. do 5 right. left. reflexivity.
Defined.

Lemma Init_invocations_witness :
  exists k,
    invocations (events (pf.Init inetOnly) brokenQueryHost []) =
      firstn k [flushOf "crowdsec-blacklists"; tablesQuery;
                flushOf "crowdsec-blacklists"; tablesQuery] /\
    (pf.inet6 inetOnly = None -> (k <= 2)%nat).
Proof.
  exact (Init_invocations brokenQueryHost [] inetOnly _ eq_refl).
Defined.

Lemma Add_ipv6_disabled_runs_on_inet_table_witness :
  invocations (events (pf.Add inetOnly (banOf "2001:db8::1" "4h"))
                      failingHost []) =
    [addOf "crowdsec-blacklists" "2001:db8::1"].
Proof.
  exact (Add_ipv6_disabled_runs_on_inet_table failingHost [] inetOnly
           (banOf "2001:db8::1" "4h") _ "4h" "2001:db8::1" "bruteforce"
           eq_refl eq_refl eq_refl eq_refl eq_refl eq_refl).
Defined.

Lemma zero_backend_never_invokes_witness :
  invocations (events (pf.Add pfCtx (banOf "203.0.113.7" "4h")) goodHost [])
    = [].
Proof.
  exact (proj1 (zero_backend_never_invokes goodHost []
                  (OpMutate Insert (banOf "203.0.113.7" "4h")))).
Defined.
